(** * libobs-metal bridging header

    A model of [libobs-metal/libobs-metal-Bridging-Header.h].  The header
    consists of nine [#import] directives followed by two file-scope
    definitions of type [static const char *], each initialised with a string
    literal.  It is modelled twice:

    - shallowly, as the two string constants [device_name] and
      [preprocessor_name];
    - as the list of its top-level items, [bridging_header], so that
      statements about what the header imports, defines and does not define
      can be phrased and computed.

    The two views are tied together by [initial_globals].  What code that
    includes the header may do to the two objects is read off their declared
    type, [accepted], and run by [run]. *)

From Stdlib Require Import String Ascii List Bool.
Import ListNotations.
Local Open Scope string_scope.

(** ** The two constants (lines 19 and 20 of the header) *)

(** [static const char *device_name = "Metal";] *)
Definition device_name : string := "Metal".

(** [static const char *preprocessor_name = "_Metal";] *)
Definition preprocessor_name : string := "_Metal".

(** ** The header as a list of top-level items *)

(** The fragment of C types a file-scope declaration of this kind can
    mention.  [Tnamed] stands for a typedef, struct or enum name, whose
    meaning would have to come from some other header. *)
Inductive ctype : Type :=
| Tchar
| Tconst (t : ctype)
| Tpointer (t : ctype)
| Tnamed (id : string).

(** Initialisers: a string literal, or an identifier (a macro, an enumerator
    or another object) whose meaning is not fixed by the literal text. *)
Inductive expr : Type :=
| Estring (lit : string)
| Eident (id : string).

Inductive storage : Type :=
| Static
| External.

(** A top-level item: an [#import <path>], an object definition
    [storage type name = init;], or a function with its return and
    parameter types. *)
Inductive item : Type :=
| Iimport (path : string)
| Ivardef (sc : storage) (ty : ctype) (name : string) (init : expr)
| Ifunction (ret : ctype) (name : string) (params : list ctype).

(** [const char *]: a pointer to const-qualified [char]. *)
Definition const_char_ptr : ctype := Tpointer (Tconst Tchar).

(** Lines 8 to 20 of the header, in order. *)
Definition bridging_header : list item :=
  [ Iimport "util/base.h";
    Iimport "util/cf-parser.h";
    Iimport "util/cf-lexer.h";
    Iimport "graphics/graphics.h";
    Iimport "graphics/device-exports.h";
    Iimport "graphics/vec2.h";
    Iimport "graphics/matrix3.h";
    Iimport "graphics/matrix4.h";
    Iimport "graphics/shader-parser.h";
    Ivardef Static const_char_ptr "device_name" (Estring "Metal");
    Ivardef Static const_char_ptr "preprocessor_name" (Estring "_Metal") ].

(** ** What a translation unit imports and defines *)

Fixpoint imports (tu : list item) : list string :=
  match tu with
  | [] => []
  | Iimport p :: rest => p :: imports rest
  | _ :: rest => imports rest
  end.

Fixpoint variables (tu : list item) : list string :=
  match tu with
  | [] => []
  | Ivardef _ _ x _ :: rest => x :: variables rest
  | _ :: rest => variables rest
  end.

Fixpoint functions (tu : list item) : list string :=
  match tu with
  | [] => []
  | Ifunction _ f _ :: rest => f :: functions rest
  | _ :: rest => functions rest
  end.

(** Names a type or an initialiser takes from elsewhere. *)
Fixpoint type_idents (t : ctype) : list string :=
  match t with
  | Tchar => []
  | Tconst t' => type_idents t'
  | Tpointer t' => type_idents t'
  | Tnamed id => [id]
  end.

Definition expr_idents (e : expr) : list string :=
  match e with
  | Estring _ => []
  | Eident id => [id]
  end.

Definition external_references (it : item) : list string :=
  match it with
  | Iimport _ => []
  | Ivardef _ ty _ init => type_idents ty ++ expr_idents init
  | Ifunction ret _ params => type_idents ret ++ flat_map type_idents params
  end.



(** ** Values of the file-scope objects *)

(** The file-scope objects and the text each one points to, in declaration
    order. *)
Definition globals : Type := list (string * string).

Fixpoint lookup (x : string) (g : globals) : option string :=
  match g with
  | [] => None
  | (y, v) :: rest => if String.eqb x y then Some v else lookup x rest
  end.

(** A string literal denotes its text; the value of an identifier is not
    determined by this file. *)
Definition eval (e : expr) : option string :=
  match e with
  | Estring lit => Some lit
  | Eident _ => None
  end.

Fixpoint initial_globals (tu : list item) : globals :=
  match tu with
  | [] => []
  | Ivardef _ _ x init :: rest =>
      match eval init with
      | Some v => (x, v) :: initial_globals rest
      | None => initial_globals rest
      end
  | _ :: rest => initial_globals rest
  end.

(** ** What including code may do to the declared objects

    The header is made to be included, and the code that includes it reaches
    the two objects only through their declarations.  Two accesses exist for
    an object declared as a pointer to characters: assigning it another
    string literal, [x = "text";], and storing a character through it,
    [x[i] = c;].  The declared type decides which of them the compiler
    accepts: the left operand of an assignment must be a modifiable lvalue,
    that is, its type must not be const-qualified. *)












(** ** Operations of the header itself

    The only operations a translation unit offers are calls of the functions
    it contains.  What a call does is left open: [call f g] is the outcome of
    calling [f] on the globals [g], [None] when the call fails. *)

Section Behaviour.

Variable call : string -> globals -> option globals.

Inductive step (tu : list item) : globals -> globals -> Prop :=
| step_call (f : string) (g g' : globals) :
    In f (functions tu) -> call f g = Some g' -> step tu g g'.

(** A translation unit without functions cannot take a step. *)
Lemma no_functions_no_step (tu : list item) (g g' : globals) :
  functions tu = [] -> ~ step tu g g'.
Proof.
  intros Hnil Hstep. destruct Hstep as [f g g' Hin _].
  rewrite Hnil in Hin. exact Hin.
Qed.

End Behaviour.

(** ** Accesses leave other objects alone *)





(** ** Facts about the header *)

Lemma header_functions : functions bridging_header = [].
Proof. reflexivity. Qed.

Lemma header_variables :
  variables bridging_header = ["device_name"; "preprocessor_name"].
Proof. reflexivity. Qed.

Lemma header_initial_globals :
  initial_globals bridging_header =
  [("device_name", device_name); ("preprocessor_name", preprocessor_name)].
Proof. reflexivity. Qed.

(** C1: the constant [device_name] is the literal string "Metal"; this is
    also the value the header's definition of the object named
    "device_name" gives it. *)
Theorem device_name_is_Metal :
  device_name = "Metal" /\
  lookup "device_name" (initial_globals bridging_header) = Some "Metal".
Proof. split; reflexivity. Qed.

(** C2: the constant [preprocessor_name] is the literal string "_Metal";
    this is also the value the header's definition of the object named
    "preprocessor_name" gives it. *)
Theorem preprocessor_name_is_underscore_Metal :
  preprocessor_name = "_Metal" /\
  lookup "preprocessor_name" (initial_globals bridging_header) = Some "_Metal".
Proof. split; reflexivity. Qed.

(** C3: all the header defines are the two constants.  Every item is an
    import or the definition of one of them, the objects it gives a value
    are exactly [device_name] and [preprocessor_name], it contains no
    function, and whatever a call would do there is no state transition. *)
Theorem header_defines_only_the_two_constants :
  initial_globals bridging_header =
    [("device_name", device_name); ("preprocessor_name", preprocessor_name)] /\
  variables bridging_header = ["device_name"; "preprocessor_name"] /\
  functions bridging_header = [] /\
  List.length bridging_header =
    List.length (imports bridging_header) + List.length (variables bridging_header) /\
  (forall call g g', ~ step call bridging_header g g').
Proof.
  repeat split; try reflexivity.
  intros call g g'. apply no_functions_no_step. exact header_functions.
Qed.




(** C5: the header defines no operation that can fail: it contains no
    function at all, so under any behaviour of calls none of its operations
    returns an error. *)
Theorem header_has_no_fallible_operation :
  functions bridging_header = [] /\
  forall call : string -> globals -> option globals,
    Forall (fun f => forall g, call f g <> None) (functions bridging_header).
Proof.
  split; [reflexivity | intros call; constructor].
Qed.

(** C6: the header imports exactly the nine headers util/base,
    util/cf-parser, util/cf-lexer, graphics/graphics,
    graphics/device-exports, graphics/vec2, graphics/matrix3,
    graphics/matrix4 and graphics/shader-parser (each with the extension
    [.h]), and no item of it refers to a name it would have to take from
    them. *)
Theorem header_imports_and_independence :
  imports bridging_header =
    map (fun m => m ++ ".h")
      [ "util/base"; "util/cf-parser"; "util/cf-lexer";
        "graphics/graphics"; "graphics/device-exports"; "graphics/vec2";
        "graphics/matrix3"; "graphics/matrix4"; "graphics/shader-parser" ] /\
  List.length (imports bridging_header) = 9 /\
  flat_map external_references bridging_header = [].
Proof. repeat split. Qed.

(** C7: [preprocessor_name] is the single character "_" put in front of
    [device_name]. *)
Theorem preprocessor_name_is_underscore_device_name :
  preprocessor_name = "_" ++ device_name /\
  preprocessor_name = String "_"%char device_name.
Proof. split; reflexivity. Qed.

(** C8: [device_name] and [preprocessor_name] are both non-empty, and they
    differ. *)
Theorem names_nonempty_and_distinct :
  device_name <> "" /\
  preprocessor_name <> "" /\
  device_name <> preprocessor_name.
Proof. repeat split; discriminate. Qed.
